(** * OpenF1 client (api.ts): a shallow embedding of the key resolver, the
    telemetry projections and the multi-driver lap-time merger.

    The TypeScript functions are async functions whose only effects are
    [fetch] requests to the OpenF1 REST API.  We model them in a small
    reader/writer/error monad:
    - the upstream API is a fixed function [world] from requests to an
      optional response ([None]: the [fetch] promise rejects, i.e. a network
      failure);
    - a computation returns either a JS value or a thrown exception, together
      with the list of requests it issued, in order. *)

From Stdlib Require Import QArith String Ascii List Bool Lia.
Import ListNotations.
Open Scope string_scope.
Open Scope list_scope.
Set Warnings "-register-all".

(** ** JavaScript values *)

(** The values the code handles: parsed JSON plus [undefined].  Numbers are
    rationals (no NaN occurs in JSON).  Object fields are listed in insertion
    order; an object produced by [JSON.parse] or by this code has pairwise
    distinct keys, so the first binding of a key is its value. *)
Inductive value : Type :=
| VUndef
| VNull
| VBool (b : bool)
| VNum (q : Q)
| VStr (s : string)
| VArr (xs : list value)
| VObj (fs : list (string * value)).

Definition obj := list (string * value).

(** Thrown exceptions. *)
Inductive error : Type :=
| ETypeError                          (* property of null/undefined, x is not a function *)
| ESyntaxError                        (* [r.json()] on a malformed body *)
| ENetwork                            (* [fetch] rejected *)
| EMeetingNotFound (year : Q) (event : string)   (* `Meeting not found for ${year} ${event}` *)
| ESessionNotFound (session : string) (meeting_key : value)
                                      (* `Session '${session}' not found for meeting ${meetingKey}` *)
| EHttp (status : Z).                 (* `HTTP error! status: ${response.status}` *)

Inductive result (A : Type) : Type :=
| Ok (a : A)
| Err (e : error).
Arguments Ok {A} a.
Arguments Err {A} e.

(** [o[k]] on an object: the value bound to [k], [undefined] if absent. *)
Fixpoint obj_lookup (fs : obj) (k : string) : value :=
  match fs with
  | [] => VUndef
  | (k', v) :: fs' => if String.eqb k k' then v else obj_lookup fs' k
  end.

(** [o[k] = v]: overwrite in place if [k] is present, else append. *)
Fixpoint obj_set (fs : obj) (k : string) (v : value) : obj :=
  match fs with
  | [] => [(k, v)]
  | (k', v') :: fs' =>
      if String.eqb k k' then (k', v) :: fs' else (k', v') :: obj_set fs' k v
  end.

(** Property read [v.k].  It throws on [null] and [undefined]; on other
    primitives and on arrays none of the field names the code reads is
    defined, so the read yields [undefined]. *)
Definition get (v : value) (k : string) : result value :=
  match v with
  | VUndef | VNull => Err ETypeError
  | VObj fs => Ok (obj_lookup fs k)
  | _ => Ok VUndef
  end.

(** The value a read yields when it does not throw. *)
Definition prop (v : value) (k : string) : value :=
  match v with
  | VObj fs => obj_lookup fs k
  | _ => VUndef
  end.

(** [a === b].  Objects and arrays compare by reference; every object or
    array the code compares with [===] comes from a distinct node of a parsed
    response, so such a comparison is always false. *)
Definition strict_eq (a b : value) : bool :=
  match a, b with
  | VUndef, VUndef => true
  | VNull, VNull => true
  | VBool x, VBool y => Bool.eqb x y
  | VNum x, VNum y => Qeq_bool x y
  | VStr x, VStr y => String.eqb x y
  | _, _ => false
  end.

Definition truthy (v : value) : bool :=
  match v with
  | VUndef | VNull => false
  | VBool b => b
  | VNum q => negb (Qeq_bool q 0)
  | VStr s => negb (String.eqb s "")
  | VArr _ | VObj _ => true
  end.

(** [String.prototype.toLowerCase] on a string whose letters are all ASCII:
    there it maps exactly A-Z to a-z.  (On other letters JS applies the
    Unicode case mapping, which this function does not model; it serves
    only to run the code on the ASCII sample inputs below.) *)
Definition ascii_lower (c : ascii) : ascii :=
  let n := nat_of_ascii c in
  if Nat.leb 65 n && Nat.leb n 90 then ascii_of_nat (n + 32)%nat else c.

Fixpoint ascii_toLowerCase (s : string) : string :=
  match s with
  | EmptyString => EmptyString
  | String c s' => String (ascii_lower c) (ascii_toLowerCase s')
  end.

(** [s.includes(t)]: [t] occurs in [s] at some position. *)
Fixpoint starts_with (s t : string) : bool :=
  match t, s with
  | EmptyString, _ => true
  | String c t', String c' s' => Ascii.eqb c c' && starts_with s' t'
  | String _ _, EmptyString => false
  end.

Fixpoint includes (s t : string) : bool :=
  starts_with s t ||
  match s with
  | EmptyString => false
  | String _ s' => includes s' t
  end.

(** ** Requests and responses *)

(** One constructor per URL template of the source; its arguments are the
    values interpolated into the template. *)
Inductive request : Type :=
| ReqMeetings (year : Q)                                 (* /meetings?year= *)
| ReqSessions (meeting_key : value)                      (* /sessions?meeting_key= *)
| ReqEntryList (session_key : value)                     (* /entry_list?session_key= *)
| ReqLaps (session_key : value) (driver : string)        (* /laps?session_key=&driver_number= *)
| ReqCarData (session_key : value) (driver : string) (lap : Q)
                                        (* /car_data?session_key=&driver_number=&lap_number= *)
| ReqPositionData (session_key : value)                  (* /position_data?session_key= *)
| ReqResultsRaces (meeting_key : value)                  (* /results/races?meeting_key= *)
| ReqResultsRace (year : Q) (meeting_key : value)        (* /results/race/${year}?meeting_key= *)
| ReqStandingsDrivers (meeting_key : value)              (* /standings/drivers?meeting_key= *)
| ReqStandingsConstructors (meeting_key : value)         (* /standings/constructors?meeting_key= *)
| ReqCarDataFiltered (driver_number : Q) (session_key : Q) (speed_min : option Q)
                          (* src/lib/api.ts: /car_data?driver_number=&session_key=[&speed>=] *)
| ReqDriverInfo (driver_number : Q) (session_key : Q)
                          (* src/lib/api.ts: /drivers?driver_number=&session_key= *)
| ReqLapData (session_key : Q) (driver_number : Q) (lap_number : Q)
                          (* src/lib/api.ts: /laps?session_key=&driver_number=&lap_number= *)
| ReqIntervals (session_key : Q) (interval_below : Q).
                          (* src/lib/api.ts: /intervals?session_key=&interval<= *)

Inductive body : Type :=
| BodyJson (v : value)
| BodyMalformed.

Record response : Type := mkResponse {
  status : Z;
  resp_body : body
}.

(** [response.ok]: status in the range 200-299. *)
Definition ok (r : response) : bool :=
  (200 <=? status r)%Z && (status r <=? 299)%Z.

(** ** The monad: the outcome and the requests issued, in order *)

Definition M (A : Type) : Type := result A * list request.

Definition ret {A} (a : A) : M A := (Ok a, []).

Definition throw {A} (e : error) : M A := (Err e, []).

Definition lift {A} (r : result A) : M A := (r, []).

Definition bind {A B} (c : M A) (k : A -> M B) : M B :=
  match c with
  | (Ok a, t1) => let (r, t2) := k a in (r, t1 ++ t2)
  | (Err e, t1) => (Err e, t1)
  end.

Notation "x <- c ;; k" := (bind c (fun x => k))
  (at level 61, c at next level, right associativity).

Definition rbind {A B} (r : result A) (k : A -> result B) : result B :=
  match r with
  | Ok a => k a
  | Err e => Err e
  end.

Notation "x <-? r ;; k" := (rbind r (fun x => k))
  (at level 61, r at next level, right associativity).

Section Lowering.

(** [s.toLowerCase()].  JS lowercases every letter by the Unicode case
    mapping; the development does not fix that table: [toLowerCase] stands
    for the method, and every statement holds for any such function.  The
    one case the code's behaviour depends on is written out: the empty
    string lowercases to itself. *)
Variable toLowerCase : string -> string.

Definition lower (s : string) : string :=
  match s with
  | EmptyString => EmptyString
  | _ => toLowerCase s
  end.

Section Api.

(** The upstream API. *)
Variable world : request -> option response.

(** [await fetch(url)] *)
Definition fetch (rq : request) : M response :=
  match world rq with
  | Some resp => (Ok resp, [rq])
  | None => (Err ENetwork, [rq])
  end.

(** [await res.json()] *)
Definition json (resp : response) : M value :=
  match resp_body resp with
  | BodyJson v => ret v
  | BodyMalformed => throw ESyntaxError
  end.

(** [await fetch(url).then(r => r.json())] *)
Definition fetch_json (rq : request) : M value :=
  resp <- fetch rq ;; json resp.

(** [xs.find(pred)] on an array: the first element for which [pred] holds,
    [undefined] if none; an exception of [pred] aborts the search. *)
Fixpoint find_elem (pred : value -> result bool) (xs : list value) : result value :=
  match xs with
  | [] => Ok VUndef
  | x :: xs' => b <-? pred x ;; if b then Ok x else find_elem pred xs'
  end.

(** [v.find(pred)]: a non-array has no [find] method. *)
Definition js_find (pred : value -> result bool) (v : value) : result value :=
  match v with
  | VArr xs => find_elem pred xs
  | _ => Err ETypeError
  end.

Fixpoint map_elems (f : value -> result value) (xs : list value) : result (list value) :=
  match xs with
  | [] => Ok []
  | x :: xs' => y <-? f x ;; ys <-? map_elems f xs' ;; Ok (y :: ys)
  end.

(** [v.map(f)] *)
Definition js_map (f : value -> result value) (v : value) : result value :=
  match v with
  | VArr xs => ys <-? map_elems f xs ;; Ok (VArr ys)
  | _ => Err ETypeError
  end.

(** [x => x.name.toLowerCase().includes(frag.toLowerCase())]; a name that is
    not a string has no [toLowerCase] method. *)
Definition name_includes (frag : string) (x : value) : result bool :=
  n <-? get x "name" ;;
  match n with
  | VStr s => Ok (includes (lower s) (lower frag))
  | _ => Err ETypeError
  end.

(** ** Key resolver (part_000, lines 38-52) *)

Definition getMeetingKey (year : Q) (event : string) : M value :=
  res <- fetch (ReqMeetings year) ;;
  list <- json res ;;
  m <- lift (js_find (name_includes event) list) ;;
  if negb (truthy m) then throw (EMeetingNotFound year event)
  else lift (get m "meeting_key").

Definition getSessionKey (meetingKey : value) (session : string) : M value :=
  res <- fetch (ReqSessions meetingKey) ;;
  list <- json res ;;
  s <- lift (js_find (name_includes session) list) ;;
  if negb (truthy s) then throw (ESessionNotFound session meetingKey)
  else lift (get s "session_key").

(** ** Fetch functions (part_000, lines 55-161) *)

Definition fetchAvailableSessions (year : Q) (event : string) : M value :=
  mk <- getMeetingKey year event ;;
  raw <- fetch_json (ReqSessions mk) ;;
  lift (js_map (fun s =>
          n <-? get s "name" ;; ty <-? get s "type" ;; d <-? get s "date" ;;
          Ok (VObj [("name", n); ("type", ty);
                    ("startTime", if truthy d then d else VStr "")])) raw).

Definition fetchSessionDrivers (year : Q) (event session : string) : M value :=
  mk <- getMeetingKey year event ;;
  sk <- getSessionKey mk session ;;
  raw <- fetch_json (ReqEntryList sk) ;;
  lift (js_map (fun d =>
          c <-? get d "driver_number" ;; n <-? get d "full_name" ;; t <-? get d "team" ;;
          Ok (VObj [("code", c); ("name", n); ("team", t)])) raw).

(** [all.find(x => x.LapNumber === lap.lap_number)], as the index of the row
    found in [all] (the row [e] the code then mutates in place). *)
Fixpoint find_row (lap : value) (rows : list obj) (i : nat) : result (option nat) :=
  match rows with
  | [] => Ok None
  | x :: rows' =>
      ln <-? get lap "lap_number" ;;
      if strict_eq (obj_lookup x "LapNumber") ln then Ok (Some i)
      else find_row lap rows' (S i)
  end.

(** Apply [f] to the row at index [i]. *)
Fixpoint update_row (i : nat) (f : obj -> obj) (rows : list obj) : list obj :=
  match rows, i with
  | [], _ => []
  | r :: rows', O => f r :: rows'
  | r :: rows', S i' => r :: update_row i' f rows'
  end.

(** The body of [laps.forEach((lap) => ...)] for driver [d]. *)
Definition merge_lap (d : string) (all : list obj) (lap : value) : result (list obj) :=
  e <-? find_row lap all 0 ;;
  match e with
  | Some i => t <-? get lap "lap_time" ;; Ok (update_row i (fun row => obj_set row d t) all)
  | None =>
      n <-? get lap "lap_number" ;; t <-? get lap "lap_time" ;;
      Ok (all ++ [obj_set [("LapNumber", n)] d t])
  end.

Fixpoint merge_laps (d : string) (all : list obj) (laps : list value) : result (list obj) :=
  match laps with
  | [] => Ok all
  | lap :: laps' => all' <-? merge_lap d all lap ;; merge_laps d all' laps'
  end.

(** [laps.forEach(...)]: a non-array has no [forEach] method. *)
Definition forEach_lap (d : string) (all : list obj) (laps : value) : result (list obj) :=
  match laps with
  | VArr xs => merge_laps d all xs
  | _ => Err ETypeError
  end.

(** [for (const d of drivers) { ... }] *)
Fixpoint driver_loop (sk : value) (drivers : list string) (all : list obj) : M (list obj) :=
  match drivers with
  | [] => ret all
  | d :: drivers' =>
      laps <- fetch_json (ReqLaps sk d) ;;
      all' <- lift (forEach_lap d all laps) ;;
      driver_loop sk drivers' all'
  end.

Definition fetchLapTimes (year : Q) (event session : string) (drivers : list string) : M value :=
  mk <- getMeetingKey year event ;;
  sk <- getSessionKey mk session ;;
  all <- driver_loop sk drivers [] ;;
  ret (VArr (map VObj all)).

(** The common body of the [fetchTelemetry*] functions, lines 84-87 and
    their copies: resolve, fetch the car data of the lap, project each
    sample with [point]. *)
Definition car_data_series (point : value -> result value)
    (year : Q) (event session driver : string) (lap : Q) : M value :=
  mk <- getMeetingKey year event ;;
  sk <- getSessionKey mk session ;;
  data <- fetch_json (ReqCarData sk driver lap) ;;
  lift (js_map point data).

Definition speed_point (p : value) : result value :=
  d <-? get p "distance" ;; v <-? get p "speed" ;; Ok (VObj [("Distance", d); ("Speed", v)]).

Definition gear_point (p : value) : result value :=
  x <-? get p "longitude" ;; y <-? get p "latitude" ;; g <-? get p "n_gear" ;;
  Ok (VObj [("X", x); ("Y", y); ("nGear", g)]).

Definition throttle_point (p : value) : result value :=
  d <-? get p "distance" ;; v <-? get p "throttle" ;; Ok (VObj [("Distance", d); ("Throttle", v)]).

Definition brake_point (p : value) : result value :=
  d <-? get p "distance" ;; v <-? get p "brake" ;; Ok (VObj [("Distance", d); ("Brake", v)]).

Definition rpm_point (p : value) : result value :=
  d <-? get p "distance" ;; v <-? get p "rpm" ;; Ok (VObj [("Distance", d); ("RPM", v)]).

(** [{ Distance: p.distance, DRS: p.drs === '1' ? 1 : 0 }] *)
Definition drs_point (p : value) : result value :=
  d <-? get p "distance" ;; v <-? get p "drs" ;;
  Ok (VObj [("Distance", d); ("DRS", VNum (if strict_eq v (VStr "1") then 1 else 0))]).

Definition fetchTelemetrySpeed := car_data_series speed_point.
Definition fetchTelemetryGear := car_data_series gear_point.
Definition fetchTelemetryThrottle := car_data_series throttle_point.
Definition fetchTelemetryBrake := car_data_series brake_point.
Definition fetchTelemetryRPM := car_data_series rpm_point.
Definition fetchTelemetryDRS := car_data_series drs_point.

Definition fetchLapPositions (year : Q) (event session : string) : M value :=
  mk <- getMeetingKey year event ;;
  sk <- getSessionKey mk session ;;
  fetch_json (ReqPositionData sk).

Definition fetchStintAnalysis (year : Q) (event session : string) : M value :=
  ret (VArr []).

Definition fetchRaceResults (year : Q) : M value :=
  mk <- getMeetingKey year "" ;;
  fetch_json (ReqResultsRaces mk).

Definition fetchSpecificRaceResults (year : Q) (event session : string) : M value :=
  mk <- getMeetingKey year event ;;
  fetch_json (ReqResultsRace year mk).

Definition fetchDriverStandings (year : Q) : M value :=
  mk <- getMeetingKey year "" ;;
  fetch_json (ReqStandingsDrivers mk).

Definition fetchTeamStandings (year : Q) : M value :=
  mk <- getMeetingKey year "" ;;
  fetch_json (ReqStandingsConstructors mk).

Definition fetchSchedule (year : Q) : M value :=
  raw <- fetch_json (ReqMeetings year) ;;
  lift (js_map (fun m =>
          k <-? get m "meeting_key" ;; n <-? get m "name" ;;
          c <-? get m "country" ;; d <-? get m "date" ;;
          Ok (VObj [("meetingKey", k); ("name", n);
                    ("country", if truthy c then c else VStr "");
                    ("date", if truthy d then d else VStr "")])) raw).

(** ** src/lib/api.ts, [fetchCarData] (lines 74-94): checks [response.ok]. *)
Definition fetchCarData (driverNumber sessionKey : Q) (speedFilter : option Q) : M value :=
  response <- fetch (ReqCarDataFiltered driverNumber sessionKey speedFilter) ;;
  if negb (ok response) then throw (EHttp (status response))
  else json response.

(** [fetchDriverInfo] (lines 100-115). *)
Definition fetchDriverInfo (driverNumber sessionKey : Q) : M value :=
  response <- fetch (ReqDriverInfo driverNumber sessionKey) ;;
  if negb (ok response) then throw (EHttp (status response))
  else json response.

(** [fetchLapData] (lines 121-138). *)
Definition fetchLapData (sessionKey driverNumber lapNumber : Q) : M value :=
  response <- fetch (ReqLapData sessionKey driverNumber lapNumber) ;;
  if negb (ok response) then throw (EHttp (status response))
  else json response.

(** [fetchIntervals] (lines 144-160). *)
Definition fetchIntervals (sessionKey intervalThreshold : Q) : M value :=
  response <- fetch (ReqIntervals sessionKey intervalThreshold) ;;
  if negb (ok response) then throw (EHttp (status response))
  else json response.

End Api.

(** ** A sample upstream *)

Definition meeting_rec (name : string) (key : Q) : value :=
  VObj [("meeting_key", VNum key); ("name", VStr name)].

Definition session_rec (name : string) (key : Q) : value :=
  VObj [("session_key", VNum key); ("name", VStr name)].

Definition lap_rec (n : Q) (t : Q) : value :=
  VObj [("lap_number", VNum n); ("lap_time", VNum t)].

(** Driver 1: laps 1 and 2 in 90.1 s and 89.9 s; driver 2: laps 1 and 3
    in 91.0 s and 88.5 s. *)
Definition sample_laps (d : string) : list value :=
  if String.eqb d "1" then [lap_rec 1 (901 # 10); lap_rec 2 (899 # 10)]
  else if String.eqb d "2" then [lap_rec 1 91; lap_rec 3 (885 # 10)]
  else [].

Definition ok_json (v : value) : option response := Some (mkResponse 200 (BodyJson v)).

Definition key_is (v : value) (k : Q) : bool :=
  match v with VNum q => Qeq_bool q k | _ => false end.

(** The 2024 season with two meetings; the race of the first one has lap
    data for drivers "1" and "2". *)
Definition sample_world (rq : request) : option response :=
  match rq with
  | ReqMeetings y =>
      if Qeq_bool y 2024 then
        ok_json (VArr [meeting_rec "Bahrain Grand Prix" 1229;
                       meeting_rec "Saudi Arabian Grand Prix" 1230])
      else ok_json (VArr [])
  | ReqSessions mk =>
      if key_is mk 1229 then
        ok_json (VArr [session_rec "Practice 1" 9463; session_rec "Race" 9472])
      else ok_json (VArr [])
  | ReqLaps sk d =>
      if key_is sk 9472 then ok_json (VArr (sample_laps d)) else ok_json (VArr [])
  | _ => None
  end.

(** ** The merged lap table as section 4.3 of the spec words it

    Each driver's laps are folded in the order the drivers are given: a lap
    sets the driver's column on the row that has its lap number, if there is
    one, and otherwise appends a row holding only that driver's column. *)
Fixpoint row_with_lap (n : value) (table : list obj) (i : nat) : option nat :=
  match table with
  | [] => None
  | row :: table' =>
      if strict_eq (obj_lookup row "LapNumber") n then Some i
      else row_with_lap n table' (S i)
  end.

Definition fold_lap (d : string) (table : list obj) (lap : value) : list obj :=
  let n := prop lap "lap_number" in
  let t := prop lap "lap_time" in
  match row_with_lap n table 0 with
  | Some i => update_row i (fun row => obj_set row d t) table
  | None => table ++ [obj_set [("LapNumber", n)] d t]
  end.

Definition merged_table (drivers : list string) (laps_of : string -> list value) : list obj :=
  fold_left (fun table d => fold_left (fold_lap d) (laps_of d) table) drivers [].

(** ** Telemetry projections *)

(** The six [data.map] callbacks of the [fetchTelemetry*] functions. *)
Definition projections : list (value -> result value) :=
  [speed_point; gear_point; throttle_point; brake_point; rpm_point; drs_point].

(** The DRS value as the spec words it: the string "1" is active (1),
    every other value inactive (0). *)
Definition drs_spec (v : value) : Q :=
  match v with
  | VStr s => if String.eqb s "1" then 1 else 0
  | _ => 0
  end.

(** The upstream [w] with every status replaced by 200, bodies unchanged. *)
Definition with_status_200 (w : request -> option response) (rq : request) : option response :=
  option_map (fun r => mkResponse 200 (resp_body r)) (w rq).

(** [sample_world], except that the car-data endpoints answer HTTP 500 with
    a JSON body [[]]. *)
Definition status500_world (rq : request) : option response :=
  match rq with
  | ReqCarData _ _ _ | ReqCarDataFiltered _ _ _ => Some (mkResponse 500 (BodyJson (VArr [])))
  | _ => sample_world rq
  end.

(** [sample_world], except that the lap request of driver "2" is rejected. *)
Definition lapfail_world (rq : request) : option response :=
  match rq with
  | ReqLaps _ d => if String.eqb d "2" then None else sample_world rq
  | _ => sample_world rq
  end.

(** Three raw car-data samples; the DRS field is the string "1", the number
    0 and null. *)
Definition sample_car_data : list value :=
  [VObj [("distance", VNum 0); ("speed", VNum 280); ("drs", VStr "1")];
   VObj [("distance", VNum 12); ("speed", VNum 284); ("drs", VNum 0)];
   VObj [("distance", VNum 25); ("speed", VNum 286); ("drs", VNull)]].

(** ** Predicates used in the statements *)

(** The name of a meeting or session record, when it is a string. *)
Definition name_of (x : value) : option string :=
  match x with
  | VObj fs => match obj_lookup fs "name" with VStr s => Some s | _ => None end
  | _ => None
  end.

(** A record whose name does not contain [frag], case-insensitively. *)
Definition no_match (frag : string) (x : value) : Prop :=
  exists s, name_of x = Some s /\ includes (lower s) (lower frag) = false.

Definition nullish (v : value) : bool :=
  match v with VUndef | VNull => true | _ => false end.

(** The requests [t] followed by those of [c]. *)
Definition issued_after {A} (t : list request) (c : M A) : M A := (fst c, t ++ snd c).

(** The calls that resolve a session key before their own request. *)
Definition session_calls (w : request -> option response) (drivers : list string)
    (driver : string) (lap : Q) : list (Q -> string -> string -> M value) :=
  [fetchSessionDrivers w;
   (fun y e s => fetchLapTimes w y e s drivers);
   (fun y e s => fetchTelemetrySpeed w y e s driver lap);
   (fun y e s => fetchTelemetryGear w y e s driver lap);
   (fun y e s => fetchTelemetryThrottle w y e s driver lap);
   (fun y e s => fetchTelemetryBrake w y e s driver lap);
   (fun y e s => fetchTelemetryRPM w y e s driver lap);
   (fun y e s => fetchTelemetryDRS w y e s driver lap);
   fetchLapPositions w].

(** The calls that resolve a meeting key before anything else. *)
Definition meeting_calls (w : request -> option response) (drivers : list string)
    (driver : string) (lap : Q) : list (Q -> string -> string -> M value) :=
  (fun y e _ => fetchAvailableSessions w y e) :: fetchSpecificRaceResults w
  :: session_calls w drivers driver lap.

(** ** Statements about the other functions *)

(** The lap number of a row of the lap table ([x.LapNumber]). *)
Definition row_lap (row : obj) : value := obj_lookup row "LapNumber".

(** No value of the list is [===] to a later one. *)
Fixpoint pairwise_distinct (xs : list value) : Prop :=
  match xs with
  | [] => True
  | x :: xs' => Forall (fun y => strict_eq x y = false) xs' /\ pairwise_distinct xs'
  end.

(** The four fetch functions of src/lib/api.ts, each with its request. *)
Definition api_ts_calls (w : request -> option response)
    (driverNumber sessionKey lapNumber threshold : Q) (speedFilter : option Q) :
    list (M value * request) :=
  [(fetchCarData w driverNumber sessionKey speedFilter,
      ReqCarDataFiltered driverNumber sessionKey speedFilter);
   (fetchDriverInfo w driverNumber sessionKey, ReqDriverInfo driverNumber sessionKey);
   (fetchLapData w sessionKey driverNumber lapNumber, ReqLapData sessionKey driverNumber lapNumber);
   (fetchIntervals w sessionKey threshold, ReqIntervals sessionKey threshold)].

(** [x ? x : fallback] as written [x || fallback]. *)
Definition or_else (x fallback : value) : value := if truthy x then x else fallback.

(** The entry [fetchSchedule] builds from a meeting record. *)
Definition schedule_entry (m : value) : value :=
  VObj [("meetingKey", prop m "meeting_key"); ("name", prop m "name");
        ("country", or_else (prop m "country") (VStr ""));
        ("date", or_else (prop m "date") (VStr ""))].

(** The entry [fetchAvailableSessions] builds from a session record. *)
Definition session_entry (s : value) : value :=
  VObj [("name", prop s "name"); ("type", prop s "type");
        ("startTime", or_else (prop s "date") (VStr ""))].

(** The entry [fetchSessionDrivers] builds from an entry-list record. *)
Definition driver_entry (d : value) : value :=
  VObj [("code", prop d "driver_number"); ("name", prop d "full_name"); ("team", prop d "team")].

(** [sample_world] extended: the 2023 meeting list is an error object with
    status 503, the 2022 one starts with [null]; the race has an entry list
    and car data (rejected for driver "44"); the driver-info endpoint of
    src/lib/api.ts answers 404. *)
Definition demo_world (rq : request) : option response :=
  match rq with
  | ReqMeetings y =>
      if Qeq_bool y 2023 then
        Some (mkResponse 503 (BodyJson (VObj [("error", VStr "unavailable")])))
      else if Qeq_bool y 2022 then ok_json (VArr [VNull; meeting_rec "Bahrain Grand Prix" 1100])
      else sample_world rq
  | ReqEntryList sk =>
      if key_is sk 9472 then
        ok_json (VArr [VObj [("driver_number", VNum 1); ("full_name", VStr "Max VERSTAPPEN");
                             ("team", VStr "Red Bull Racing")]])
      else ok_json (VArr [])
  | ReqCarData sk d _ =>
      if String.eqb d "44" then None
      else if key_is sk 9472 then ok_json (VArr sample_car_data) else ok_json (VArr [])
  | ReqDriverInfo _ _ => Some (mkResponse 404 (BodyJson (VObj [("detail", VStr "Not found")])))
  | _ => sample_world rq
  end.

(** ** Monad and resolver lemmas *)

Lemma bind_Err {A B} (e : error) (t : list request) (k : A -> M B) :
  bind (Err e, t) k = (Err e, t).
Proof. reflexivity. Qed.

Lemma bind_Ok {A B} (a : A) (t : list request) (k : A -> M B) :
  bind (Ok a, t) k = let (r, t2) := k a in (r, t ++ t2).
Proof. reflexivity. Qed.

Lemma bind_ext {A B} (c1 c2 : M A) (k1 k2 : A -> M B) :
  c1 = c2 -> (forall a, k1 a = k2 a) -> bind c1 k1 = bind c2 k2.
Proof.
  intros -> Hk. destruct c2 as [[a|e] t]; simpl; [rewrite Hk|]; reflexivity.
Qed.

Lemma name_includes_name (frag : string) (x : value) (s : string) :
  name_of x = Some s -> name_includes frag x = Ok (includes (lower s) (lower frag)).
Proof.
  unfold name_includes, rbind, get. destruct x; simpl; try discriminate.
  destruct (obj_lookup fs "name"); intro H; inversion H; reflexivity.
Qed.

Lemma name_of_obj (x : value) (s : string) :
  name_of x = Some s -> exists fs, x = VObj fs.
Proof. destruct x; simpl; try discriminate. eauto. Qed.

Lemma find_elem_first (frag : string) (pre : list value) (m : value) (post : list value) (s : string) :
  Forall (no_match frag) pre ->
  name_of m = Some s -> includes (lower s) (lower frag) = true ->
  find_elem (name_includes frag) (pre ++ m :: post) = Ok m.
Proof.
  intros Hpre Hm Hinc. induction Hpre as [|x pre [s' [Hx Hf]] _ IH]; simpl.
  - rewrite (name_includes_name frag m s Hm), Hinc. reflexivity.
  - rewrite (name_includes_name frag x s' Hx), Hf. exact IH.
Qed.

Lemma find_elem_none (frag : string) (xs : list value) :
  Forall (no_match frag) xs -> find_elem (name_includes frag) xs = Ok VUndef.
Proof.
  intros H. induction H as [|x xs [s' [Hx Hf]] _ IH]; simpl.
  - reflexivity.
  - rewrite (name_includes_name frag x s' Hx), Hf. exact IH.
Qed.

Lemma starts_with_empty (s : string) : starts_with s "" = true.
Proof. destruct s; reflexivity. Qed.

Lemma includes_empty (s : string) : includes s "" = true.
Proof. destruct s; simpl; reflexivity. Qed.

Lemma getMeetingKey_found (w : request -> option response) (year : Q) (event : string)
    (st : Z) (pre : list value) (m : value) (post : list value) (s : string) :
  w (ReqMeetings year) = Some (mkResponse st (BodyJson (VArr (pre ++ m :: post)))) ->
  Forall (no_match event) pre ->
  name_of m = Some s -> includes (lower s) (lower event) = true ->
  getMeetingKey w year event = (Ok (prop m "meeting_key"), [ReqMeetings year]).
Proof.
  intros Hw Hpre Hm Hinc.
  destruct (name_of_obj m s Hm) as [fs ->].
  unfold getMeetingKey, fetch. rewrite Hw. simpl.
  rewrite (find_elem_first event pre (VObj fs) post s Hpre Hm Hinc). reflexivity.
Qed.

Lemma getMeetingKey_none (w : request -> option response) (year : Q) (event : string)
    (st : Z) (ms : list value) :
  w (ReqMeetings year) = Some (mkResponse st (BodyJson (VArr ms))) ->
  Forall (no_match event) ms ->
  getMeetingKey w year event = (Err (EMeetingNotFound year event), [ReqMeetings year]).
Proof.
  intros Hw Hms. unfold getMeetingKey, fetch. rewrite Hw. simpl.
  rewrite (find_elem_none event ms Hms). reflexivity.
Qed.

Lemma getSessionKey_none (w : request -> option response) (mk : value) (session : string)
    (st : Z) (ss : list value) :
  w (ReqSessions mk) = Some (mkResponse st (BodyJson (VArr ss))) ->
  Forall (no_match session) ss ->
  getSessionKey w mk session = (Err (ESessionNotFound session mk), [ReqSessions mk]).
Proof.
  intros Hw Hss. unfold getSessionKey, fetch. rewrite Hw. simpl.
  rewrite (find_elem_none session ss Hss). reflexivity.
Qed.

Lemma session_calls_shape (w : request -> option response) (drivers : list string)
    (driver : string) (lap : Q) (f : Q -> string -> string -> M value) :
  In f (session_calls w drivers driver lap) ->
  exists k : Q -> string -> string -> value -> M value,
    forall y e s, f y e s = (mk <- getMeetingKey w y e ;; sk <- getSessionKey w mk s ;; k y e s sk).
Proof.
  simpl. intros H.
  repeat (destruct H as [<- | H]; [eexists; intros; reflexivity |]).
  destruct H.
Qed.

Lemma meeting_calls_shape (w : request -> option response) (drivers : list string)
    (driver : string) (lap : Q) (f : Q -> string -> string -> M value) :
  In f (meeting_calls w drivers driver lap) ->
  exists k : Q -> string -> string -> value -> M value,
    forall y e s, f y e s = (mk <- getMeetingKey w y e ;; k y e s mk).
Proof.
  intros [<- | [<- | H]]; [eexists; intros; reflexivity | eexists; intros; reflexivity |].
  destruct (session_calls_shape w drivers driver lap f H) as [k Hk].
  exists (fun y e s mk => sk <- getSessionKey w mk s ;; k y e s sk). exact Hk.
Qed.

(** ** Key resolver *)

(** C2: when some meeting of the year's list has a name containing the
    fragment case-insensitively, [getMeetingKey] returns the [meeting_key] of
    the first such meeting in the list's order, after the one request for the
    year's meetings; later matches are ignored. *)
Theorem getMeetingKey_first_match (w : request -> option response) (year : Q) (event : string)
    (st : Z) (pre : list value) (m : value) (post : list value) (s : string)
    (Hw : w (ReqMeetings year) = Some (mkResponse st (BodyJson (VArr (pre ++ m :: post)))))
    (Hpre : Forall (no_match event) pre)
    (Hm : name_of m = Some s)
    (Hinc : includes (lower s) (lower event) = true) :
  getMeetingKey w year event = (Ok (prop m "meeting_key"), [ReqMeetings year]).
Proof. exact (getMeetingKey_found w year event st pre m post s Hw Hpre Hm Hinc). Qed.

(** C3: with no name matching, [getMeetingKey] throws the meeting-not-found
    error and [getSessionKey] the session-not-found error; every call that
    depends on the key then fails with that same error, having issued only
    the resolution requests. *)
Theorem resolution_failure_aborts (w : request -> option response) (year : Q)
    (event session : string) (drivers : list string) (driver : string) (lap : Q) :
  (forall st ms,
      w (ReqMeetings year) = Some (mkResponse st (BodyJson (VArr ms))) ->
      Forall (no_match event) ms ->
      getMeetingKey w year event = (Err (EMeetingNotFound year event), [ReqMeetings year]) /\
      forall f : Q -> string -> string -> M value, In f (meeting_calls w drivers driver lap) ->
        f year event session = (Err (EMeetingNotFound year event), [ReqMeetings year])) /\
  (forall mk t st ss,
      getMeetingKey w year event = (Ok mk, t) ->
      w (ReqSessions mk) = Some (mkResponse st (BodyJson (VArr ss))) ->
      Forall (no_match session) ss ->
      getSessionKey w mk session = (Err (ESessionNotFound session mk), [ReqSessions mk]) /\
      forall f : Q -> string -> string -> M value, In f (session_calls w drivers driver lap) ->
        f year event session = (Err (ESessionNotFound session mk), t ++ [ReqSessions mk])).
Proof.
  split.
  - intros st ms Hw Hms.
    pose proof (getMeetingKey_none w year event st ms Hw Hms) as Hg.
    split; [exact Hg |].
    intros f Hf. destruct (meeting_calls_shape w drivers driver lap f Hf) as [k Hk].
    rewrite Hk, Hg. reflexivity.
  - intros mk t st ss Hmk Hw Hss.
    pose proof (getSessionKey_none w mk session st ss Hw Hss) as Hg.
    split; [exact Hg |].
    intros f Hf. destruct (session_calls_shape w drivers driver lap f Hf) as [k Hk].
    rewrite Hk, Hmk, bind_Ok, Hg. reflexivity.
Qed.

(** C9: the empty fragment matches the first meeting of a non-empty list, so
    [fetchDriverStandings], [fetchTeamStandings] and [fetchRaceResults] issue
    their one request with the first meeting's key and return its outcome;
    with an empty list all three fail with the meeting-not-found error. *)
Theorem empty_fragment_first_meeting (w : request -> option response) (year : Q) :
  (forall st m rest s,
      w (ReqMeetings year) = Some (mkResponse st (BodyJson (VArr (m :: rest)))) ->
      name_of m = Some s ->
      let mk := prop m "meeting_key" in
      getMeetingKey w year "" = (Ok mk, [ReqMeetings year]) /\
      fetchDriverStandings w year = issued_after [ReqMeetings year] (fetch_json w (ReqStandingsDrivers mk)) /\
      fetchTeamStandings w year = issued_after [ReqMeetings year] (fetch_json w (ReqStandingsConstructors mk)) /\
      fetchRaceResults w year = issued_after [ReqMeetings year] (fetch_json w (ReqResultsRaces mk))) /\
  (forall st,
      w (ReqMeetings year) = Some (mkResponse st (BodyJson (VArr []))) ->
      fetchDriverStandings w year = (Err (EMeetingNotFound year ""), [ReqMeetings year]) /\
      fetchTeamStandings w year = (Err (EMeetingNotFound year ""), [ReqMeetings year]) /\
      fetchRaceResults w year = (Err (EMeetingNotFound year ""), [ReqMeetings year])).
Proof.
  split.
  - intros st m rest s Hw Hm mk.
    assert (Hg : getMeetingKey w year "" = (Ok mk, [ReqMeetings year])).
    { apply (getMeetingKey_found w year "" st [] m rest s); auto.
      apply includes_empty. }
    unfold fetchDriverStandings, fetchTeamStandings, fetchRaceResults, issued_after.
    rewrite Hg. repeat split; rewrite bind_Ok; destruct fetch_json; reflexivity.
  - intros st Hw.
    assert (Hg := getMeetingKey_none w year "" st [] Hw (Forall_nil _)).
    unfold fetchDriverStandings, fetchTeamStandings, fetchRaceResults.
    rewrite Hg. repeat split.
Qed.

(** C8: [fetchStintAnalysis] resolves to the empty array for all arguments,
    without any request. *)
Theorem fetchStintAnalysis_empty (year : Q) (event session : string) :
  fetchStintAnalysis year event session = (Ok (VArr []), []).
Proof. reflexivity. Qed.

(** C10: [fetchSpecificRaceResults] ignores its session argument: the same
    requests and the same outcome for any two sessions. *)
Theorem fetchSpecificRaceResults_session_irrelevant (w : request -> option response)
    (year : Q) (event s1 s2 : string) :
  fetchSpecificRaceResults w year event s1 = fetchSpecificRaceResults w year event s2.
Proof. reflexivity. Qed.

(** ** Lap-time merger *)

Lemma get_prop (v : value) (k : string) : nullish v = false -> get v k = Ok (prop v k).
Proof. destruct v; simpl; congruence. Qed.

Lemma find_row_spec (lap : value) (rows : list obj) (i : nat) :
  nullish lap = false ->
  find_row lap rows i = Ok (row_with_lap (prop lap "lap_number") rows i).
Proof.
  intros Hl. revert i. induction rows as [|row rows IH]; intros i; simpl.
  - reflexivity.
  - rewrite (get_prop lap "lap_number" Hl). simpl.
    destruct (strict_eq (obj_lookup row "LapNumber") (prop lap "lap_number")); auto.
Qed.

Lemma merge_lap_spec (d : string) (all : list obj) (lap : value) :
  nullish lap = false -> merge_lap d all lap = Ok (fold_lap d all lap).
Proof.
  intros Hl. unfold merge_lap, fold_lap.
  rewrite (find_row_spec lap all 0 Hl). simpl.
  destruct (row_with_lap (prop lap "lap_number") all 0);
    rewrite !(get_prop lap _ Hl); reflexivity.
Qed.

Lemma merge_laps_spec (d : string) (all : list obj) (laps : list value) :
  Forall (fun lap => nullish lap = false) laps ->
  merge_laps d all laps = Ok (fold_left (fold_lap d) laps all).
Proof.
  intros H. revert all. induction H as [|lap laps Hl _ IH]; intros all; simpl.
  - reflexivity.
  - rewrite (merge_lap_spec d all lap Hl). simpl. apply IH.
Qed.

Lemma driver_loop_spec (w : request -> option response) (sk : value)
    (laps_of : string -> list value) (drivers : list string) (all : list obj) :
  (forall d, In d drivers ->
     exists st, w (ReqLaps sk d) = Some (mkResponse st (BodyJson (VArr (laps_of d))))) ->
  (forall d, In d drivers -> Forall (fun lap => nullish lap = false) (laps_of d)) ->
  driver_loop w sk drivers all =
    (Ok (fold_left (fun table d => fold_left (fold_lap d) (laps_of d) table) drivers all),
     map (ReqLaps sk) drivers).
Proof.
  revert all. induction drivers as [|d drivers IH]; intros all Hw Hr; simpl.
  - reflexivity.
  - destruct (Hw d (or_introl eq_refl)) as [st Hd].
    unfold fetch_json, fetch. rewrite Hd. simpl.
    rewrite (merge_laps_spec d all (laps_of d) (Hr d (or_introl eq_refl))). simpl.
    rewrite IH; [reflexivity | intros d' H'; apply Hw | intros d' H'; apply Hr];
      right; exact H'.
Qed.

Lemma driver_loop_fails (w : request -> option response) (sk : value) (d : string) (e : error)
    (drivers : list string) (all : list obj) :
  In d drivers -> fst (fetch_json w (ReqLaps sk d)) = Err e ->
  exists e' t', driver_loop w sk drivers all = (Err e', t').
Proof.
  intros Hin Hf. revert all. induction drivers as [|d0 drivers IH]; intros all.
  - destruct Hin.
  - simpl. destruct (fetch_json w (ReqLaps sk d0)) as [[laps|e0] t0] eqn:E.
    + destruct Hin as [-> | Hin].
      * rewrite E in Hf. discriminate.
      * rewrite bind_Ok. simpl. destruct (forEach_lap d0 all laps) as [all'|e1].
        -- destruct (IH Hin all') as [e' [t' ->]]. simpl. eauto.
        -- simpl. eauto.
    + simpl. eauto.
Qed.


(** C4: if the lap request of any one driver fails (the fetch rejects or its
    body is not JSON), [fetchLapTimes] fails as a whole: no table is
    returned, whatever the other drivers' requests gave. *)
Theorem fetchLapTimes_all_or_nothing (w : request -> option response) (year : Q)
    (event session : string) (drivers : list string) (d : string)
    (mk sk : value) (t1 t2 : list request) (e : error)
    (Hmk : getMeetingKey w year event = (Ok mk, t1))
    (Hsk : getSessionKey w mk session = (Ok sk, t2))
    (Hin : In d drivers)
    (Hfail : fst (fetch_json w (ReqLaps sk d)) = Err e) :
  exists e' t', fetchLapTimes w year event session drivers = (Err e', t').
Proof.
  unfold fetchLapTimes. rewrite Hmk, bind_Ok, Hsk, bind_Ok.
  destruct (driver_loop_fails w sk d e drivers [] Hin Hfail) as [e' [t' ->]].
  simpl. eauto.
Qed.

(** ** Telemetry projections *)

Lemma map_elems_Forall2 (f : value -> result value) (xs ys : list value) :
  map_elems f xs = Ok ys -> Forall2 (fun x y => f x = Ok y) xs ys.
Proof.
  revert ys. induction xs as [|x xs IH]; intros ys; simpl.
  - intros H. inversion H. constructor.
  - destruct (f x) as [y|e] eqn:Ef; simpl; [|discriminate].
    destruct (map_elems f xs) as [ys'|e] eqn:Em; simpl; [|discriminate].
    intros H. inversion H. constructor; auto.
Qed.

Lemma map_elems_total (f : value -> result value) (xs : list value) :
  Forall (fun x => exists y, f x = Ok y) xs -> exists ys, map_elems f xs = Ok ys.
Proof.
  intros H. induction H as [|x xs [y Hy] _ [ys IH]]; simpl.
  - eauto.
  - rewrite Hy. simpl. rewrite IH. simpl. eauto.
Qed.

Lemma js_map_arr (f : value -> result value) (samples : list value) (out : value) :
  js_map f (VArr samples) = Ok out ->
  exists ys, out = VArr ys /\ Forall2 (fun p y => f p = Ok y) samples ys.
Proof.
  simpl. destruct (map_elems f samples) as [ys|e] eqn:E; simpl; [|discriminate].
  intros H. inversion H. exists ys. split; [reflexivity | apply map_elems_Forall2; exact E].
Qed.

Lemma projections_total (point : value -> result value) (p : value) :
  In point projections -> nullish p = false -> exists y, point p = Ok y.
Proof.
  intros Hin Hp. simpl in Hin.
  repeat (destruct Hin as [<- | Hin];
    [unfold speed_point, gear_point, throttle_point, brake_point, rpm_point, drs_point;
     rewrite !(get_prop p _ Hp); simpl; eauto |]).
  destruct Hin.
Qed.

Lemma js_map_total (point : value -> result value) (samples : list value) :
  In point projections -> Forall (fun p => nullish p = false) samples ->
  exists ys, js_map point (VArr samples) = Ok (VArr ys).
Proof.
  intros Hin H.
  destruct (map_elems_total point samples) as [ys Hys].
  - eapply Forall_impl; [| exact H]. intros p Hp. exact (projections_total point p Hin Hp).
  - exists ys. simpl. rewrite Hys. reflexivity.
Qed.

Lemma drs_point_value (p y : value) :
  drs_point p = Ok y -> prop y "DRS" = VNum (drs_spec (prop p "drs")).
Proof.
  unfold drs_point. destruct p; simpl; try discriminate;
    try (intros H; inversion H; reflexivity).
  destruct (obj_lookup fs "drs"); intros H; inversion H; reflexivity.
Qed.

(** C6: the DRS projection maps a sample whose [drs] is the string "1" to
    DRS 1 and a sample with any other [drs] (the string "0", the number 0,
    null, a missing field, ...) to DRS 0, point by point; on samples that
    are records it always produces its points. *)
Theorem drs_projection (samples : list value) :
  (forall out, js_map drs_point (VArr samples) = Ok out ->
     exists ys, out = VArr ys /\
       Forall2 (fun p y => prop y "DRS" = VNum (drs_spec (prop p "drs"))) samples ys) /\
  (Forall (fun p => nullish p = false) samples ->
     exists ys, js_map drs_point (VArr samples) = Ok (VArr ys)).
Proof.
  split.
  - intros out H. destruct (js_map_arr drs_point samples out H) as [ys [-> Hys]].
    exists ys. split; [reflexivity |].
    eapply Forall2_impl; [| exact Hys]. intros p y. apply drs_point_value.
  - apply js_map_total. simpl. tauto.
Qed.

(** C7: each metric projection maps the i-th raw sample to the i-th point:
    its output has the input's length and order, nothing filtered, sorted or
    merged; on samples that are records it always produces its points. *)
Theorem projection_preserves_samples (point : value -> result value) (samples : list value)
    (Hp : In point projections) :
  (forall out, js_map point (VArr samples) = Ok out ->
     exists ys, out = VArr ys /\ length ys = length samples /\
       Forall2 (fun p y => point p = Ok y) samples ys) /\
  (Forall (fun p => nullish p = false) samples ->
     exists ys, js_map point (VArr samples) = Ok (VArr ys)).
Proof.
  split.
  - intros out H. destruct (js_map_arr point samples out H) as [ys [-> Hys]].
    exists ys. split; [reflexivity | split; [|exact Hys]].
    symmetry. exact (Forall2_length Hys).
  - apply js_map_total. exact Hp.
Qed.

(** ** HTTP status *)

Lemma fetch_json_status (w : request -> option response) (rq : request) :
  fetch_json w rq = fetch_json (with_status_200 w) rq.
Proof. unfold fetch_json, fetch, with_status_200. destruct (w rq); reflexivity. Qed.

Lemma getMeetingKey_status (w : request -> option response) (year : Q) (event : string) :
  getMeetingKey w year event = getMeetingKey (with_status_200 w) year event.
Proof.
  unfold getMeetingKey, fetch, with_status_200. destruct (w (ReqMeetings year)); reflexivity.
Qed.

Lemma getSessionKey_status (w : request -> option response) (mk : value) (session : string) :
  getSessionKey w mk session = getSessionKey (with_status_200 w) mk session.
Proof.
  unfold getSessionKey, fetch, with_status_200. destruct (w (ReqSessions mk)); reflexivity.
Qed.


(** ** Further properties of the code *)

(** X1: each resolver call issues exactly one request (the meeting list,
    resp. the session list), whatever the answer: no retry and no cache. *)
Theorem resolvers_one_request (w : request -> option response) :
  (forall year event, snd (getMeetingKey w year event) = [ReqMeetings year]) /\
  (forall mk session, snd (getSessionKey w mk session) = [ReqSessions mk]).
Proof.
  split; intros;
    cbv [getMeetingKey getSessionKey bind fetch json lift throw ret];
    destruct (w _) as [r|]; try destruct (resp_body r); simpl; try reflexivity;
    destruct (js_find _ _) as [a|e]; simpl; try destruct (negb (truthy a)); reflexivity.
Qed.

Lemma js_find_not_array (pred : value -> result bool) (v : value) :
  (forall xs, v <> VArr xs) -> js_find pred v = Err ETypeError.
Proof. destruct v; simpl; intros H; try reflexivity. exfalso. exact (H xs eq_refl). Qed.

(** X2: if the meeting (resp. session) list response is JSON but not an
    array, e.g. an error object, the resolver throws a TypeError rather than
    its not-found error. *)
Theorem resolvers_non_array_body (w : request -> option response) :
  (forall year event r v,
     w (ReqMeetings year) = Some r -> resp_body r = BodyJson v -> (forall xs, v <> VArr xs) ->
     getMeetingKey w year event = (Err ETypeError, [ReqMeetings year])) /\
  (forall mk session r v,
     w (ReqSessions mk) = Some r -> resp_body r = BodyJson v -> (forall xs, v <> VArr xs) ->
     getSessionKey w mk session = (Err ETypeError, [ReqSessions mk])).
Proof.
  split; intros a b r v Hw Hb Hv;
    [unfold getMeetingKey | unfold getSessionKey]; unfold fetch, json;
    rewrite Hw; simpl; rewrite Hb; simpl; rewrite (js_find_not_array _ v Hv); reflexivity.
Qed.

Lemma name_includes_bad (frag : string) (x : value) :
  name_of x = None -> name_includes frag x = Err ETypeError.
Proof.
  unfold name_includes, rbind, get. destruct x; simpl; try reflexivity; try discriminate.
  destruct (obj_lookup fs "name"); try reflexivity; discriminate.
Qed.

Lemma find_elem_bad (frag : string) (pre : list value) (m : value) (post : list value) :
  Forall (no_match frag) pre -> name_of m = None ->
  find_elem (name_includes frag) (pre ++ m :: post) = Err ETypeError.
Proof.
  intros Hpre Hm. induction Hpre as [|x pre [s' [Hx Hf]] _ IH]; simpl.
  - rewrite (name_includes_bad frag m Hm). reflexivity.
  - rewrite (name_includes_name frag x s' Hx), Hf. exact IH.
Qed.

(** X3: a record without a string name met before any match (null, a
    number, an object whose name is missing or not a string) makes the
    resolver throw a TypeError, even when a later record would match. *)
Theorem resolvers_bad_record_aborts (w : request -> option response) (st : Z)
    (frag : string) (pre : list value) (m : value) (post : list value)
    (Hpre : Forall (no_match frag) pre) (Hm : name_of m = None) :
  (forall year,
     w (ReqMeetings year) = Some (mkResponse st (BodyJson (VArr (pre ++ m :: post)))) ->
     getMeetingKey w year frag = (Err ETypeError, [ReqMeetings year])) /\
  (forall mk,
     w (ReqSessions mk) = Some (mkResponse st (BodyJson (VArr (pre ++ m :: post)))) ->
     getSessionKey w mk frag = (Err ETypeError, [ReqSessions mk])).
Proof.
  split; intros a Hw; [unfold getMeetingKey | unfold getSessionKey]; unfold fetch;
    rewrite Hw; simpl; rewrite (find_elem_bad frag pre m post Hpre Hm); reflexivity.
Qed.

(** X4: every fetch function of src/lib/api.ts issues exactly one request;
    a status outside 200-299 throws an error carrying that status whatever
    the body, and a status in range yields the parsed JSON body. *)
Theorem api_ts_status_checked (w : request -> option response)
    (driverNumber sessionKey lapNumber threshold : Q) (speedFilter : option Q) :
  forall c rq, In (c, rq) (api_ts_calls w driverNumber sessionKey lapNumber threshold speedFilter) ->
    snd c = [rq] /\
    (forall r, w rq = Some r -> ok r = false -> c = (Err (EHttp (status r)), [rq])) /\
    (forall r v, w rq = Some r -> ok r = true -> resp_body r = BodyJson v -> c = (Ok v, [rq])).
Proof.
  intros c rq Hin. simpl in Hin.
  repeat (destruct Hin as [Heq | Hin];
    [inversion Heq; subst;
     unfold fetchCarData, fetchDriverInfo, fetchLapData, fetchIntervals, fetch, json, throw, ret;
     split; [destruct (w _) as [r|]; simpl; [destruct (ok r); simpl; [destruct (resp_body r)|]|];
             reflexivity |];
     split; [intros r Hw Hok; rewrite Hw; simpl; rewrite Hok; reflexivity
            |intros r v Hw Hok Hb; rewrite Hw; simpl; rewrite Hok; simpl; rewrite Hb; reflexivity]
    |]).
  destruct Hin.
Qed.

(** X5: the DRS projection never reports DRS as active for a sample whose
    [drs] is a number, the type [CarDataPoint] of src/lib/api.ts declares
    for it: only the string "1" counts as active. *)
Theorem drs_numeric_inactive (p y : value) (q : Q)
    (Hp : drs_point p = Ok y) (Hq : prop p "drs" = VNum q) :
  prop y "DRS" = VNum 0.
Proof. rewrite (drs_point_value p y Hp), Hq. reflexivity. Qed.

(** X6: once both keys are resolved, a telemetry series fails with a
    network error when the car-data fetch rejects, with a parse error on a
    malformed body and with a TypeError on a JSON body that is not an array;
    an empty array yields the empty series.  The requests are the two
    resolutions and the one car-data request. *)
Theorem car_data_series_outcomes (w : request -> option response) (point : value -> result value)
    (year : Q) (event session driver : string) (lap : Q)
    (mk sk : value) (t1 t2 : list request)
    (Hmk : getMeetingKey w year event = (Ok mk, t1))
    (Hsk : getSessionKey w mk session = (Ok sk, t2)) :
  let rq := ReqCarData sk driver lap in
  let run := car_data_series w point year event session driver lap in
  (w rq = None -> run = (Err ENetwork, t1 ++ t2 ++ [rq])) /\
  (forall st, w rq = Some (mkResponse st BodyMalformed) -> run = (Err ESyntaxError, t1 ++ t2 ++ [rq])) /\
  (forall st v, w rq = Some (mkResponse st (BodyJson v)) -> (forall xs, v <> VArr xs) ->
     run = (Err ETypeError, t1 ++ t2 ++ [rq])) /\
  (forall st, w rq = Some (mkResponse st (BodyJson (VArr []))) ->
     run = (Ok (VArr []), t1 ++ t2 ++ [rq])).
Proof.
  intros rq run. subst rq run. unfold car_data_series.
  rewrite Hmk, bind_Ok, Hsk, bind_Ok. unfold fetch_json, fetch, json.
  repeat split.
  - intros Hw. rewrite Hw. reflexivity.
  - intros st Hw. rewrite Hw. reflexivity.
  - intros st v Hw Hv. rewrite Hw. simpl.
    destruct v; try reflexivity. exfalso. exact (Hv xs eq_refl).
  - intros st Hw. rewrite Hw. reflexivity.
Qed.

(** *** The lap table kept by [fetchLapTimes] *)

Lemma bind_Ok_inv {A B} (c : M A) (k : A -> M B) (b : B) (t : list request) :
  bind c k = (Ok b, t) ->
  exists a t1 t2, c = (Ok a, t1) /\ k a = (Ok b, t2) /\ t = t1 ++ t2.
Proof.
  destruct c as [[a|e] t1]; simpl; [|discriminate].
  destruct (k a) as [r t2] eqn:E. intros H. inversion H; subst. eauto 6.
Qed.

Lemma rbind_Ok_inv {A B} (r : result A) (k : A -> result B) (b : B) :
  rbind r k = Ok b -> exists a, r = Ok a /\ k a = Ok b.
Proof. destruct r; simpl; [eauto | discriminate]. Qed.

Lemma get_Ok_prop (v : value) (k : string) (x : value) : get v k = Ok x -> x = prop v k.
Proof. destruct v; simpl; congruence. Qed.

Lemma obj_lookup_set_other (fs : obj) (k k' : string) (v : value) :
  k <> k' -> obj_lookup (obj_set fs k v) k' = obj_lookup fs k'.
Proof.
  intros Hk. induction fs as [|[k0 v0] fs IH]; simpl.
  - destruct (String.eqb_spec k' k); [congruence | reflexivity].
  - destruct (String.eqb_spec k k0) as [->|Hne]; simpl.
    + destruct (String.eqb_spec k' k0); [congruence | reflexivity].
    + destruct (String.eqb k' k0); [reflexivity | exact IH].
Qed.

Lemma update_row_laps (i : nat) (f : obj -> obj) (rows : list obj) :
  (forall r, row_lap (f r) = row_lap r) ->
  map row_lap (update_row i f rows) = map row_lap rows.
Proof.
  intros Hf. revert i. induction rows as [|r rows IH]; intros [|i]; simpl;
    try rewrite Hf; try rewrite IH; reflexivity.
Qed.

Lemma find_row_None (lap : value) (rows : list obj) (i : nat) :
  find_row lap rows i = Ok None ->
  Forall (fun x => strict_eq x (prop lap "lap_number") = false) (map row_lap rows).
Proof.
  revert i. induction rows as [|x rows IH]; intros i; simpl; [constructor|].
  intros H. destruct (rbind_Ok_inv _ _ _ H) as [ln [Hg Hk]].
  rewrite <- (get_Ok_prop _ _ _ Hg).
  destruct (strict_eq (obj_lookup x "LapNumber") ln) eqn:E; [discriminate|].
  constructor; [exact E|]. rewrite (get_Ok_prop _ _ _ Hg). exact (IH _ Hk).
Qed.

Lemma find_row_Some (lap : value) (rows : list obj) (i j : nat) :
  find_row lap rows i = Ok (Some j) ->
  exists x, In x (map row_lap rows) /\ strict_eq x (prop lap "lap_number") = true.
Proof.
  revert i. induction rows as [|x rows IH]; intros i; simpl; [discriminate|].
  intros H. destruct (rbind_Ok_inv _ _ _ H) as [ln [Hg Hk]].
  rewrite <- (get_Ok_prop _ _ _ Hg).
  destruct (strict_eq (obj_lookup x "LapNumber") ln) eqn:E.
  - exists (row_lap x). split; [left; reflexivity | exact E].
  - destruct (IH _ Hk) as [y [Hy Hs]]. exists y. split; [right; exact Hy|].
    rewrite (get_Ok_prop _ _ _ Hg). exact Hs.
Qed.

(** One lap either updates a row with its lap number, leaving the lap
    numbers as they are, or appends its lap number, which no row had. *)
Lemma merge_lap_laps (d : string) (all all' : list obj) (lap : value) :
  d <> "LapNumber" -> merge_lap d all lap = Ok all' ->
  (map row_lap all' = map row_lap all /\
   exists x, In x (map row_lap all) /\ strict_eq x (prop lap "lap_number") = true) \/
  (map row_lap all' = map row_lap all ++ [prop lap "lap_number"] /\
   Forall (fun x => strict_eq x (prop lap "lap_number") = false) (map row_lap all)).
Proof.
  intros Hd H. unfold merge_lap in H.
  destruct (rbind_Ok_inv _ _ _ H) as [[i|] [Hf Hk]].
  - left. destruct (rbind_Ok_inv _ _ _ Hk) as [t [_ Ht]]. inversion Ht; subst.
    split; [| exact (find_row_Some _ _ _ _ Hf)].
    apply update_row_laps. intros r. unfold row_lap.
    apply obj_lookup_set_other. exact Hd.
  - right. destruct (rbind_Ok_inv _ _ _ Hk) as [n [Hn Hk']].
    destruct (rbind_Ok_inv _ _ _ Hk') as [t [_ Ht]]. inversion Ht; subst.
    split; [| exact (find_row_None _ _ _ Hf)].
    rewrite map_app. f_equal. simpl. rewrite (get_Ok_prop _ _ _ Hn).
    destruct (String.eqb_spec d "LapNumber"); [congruence|]. reflexivity.
Qed.

Lemma pairwise_distinct_snoc (xs : list value) (y : value) :
  pairwise_distinct xs -> Forall (fun x => strict_eq x y = false) xs ->
  pairwise_distinct (xs ++ [y]).
Proof.
  induction xs as [|x xs IH]; simpl; intros Hd Hy; [split; constructor|].
  destruct Hd as [Hx Hd]. inversion Hy; subst.
  split; [apply Forall_app; split; [exact Hx | constructor; [assumption | constructor]]|].
  apply IH; assumption.
Qed.

Lemma strict_eq_num_refl (q : Q) : strict_eq (VNum q) (VNum q) = true.
Proof. simpl. apply Qeq_bool_iff. reflexivity. Qed.

(** The invariants of one driver's laps: lap numbers only appended, kept
    pairwise distinct, and every numeric lap number present. *)
Lemma merge_laps_laps (d : string) (all all' : list obj) (laps : list value) :
  d <> "LapNumber" -> merge_laps d all laps = Ok all' ->
  (exists ext, map row_lap all' = map row_lap all ++ ext) /\
  (pairwise_distinct (map row_lap all) -> pairwise_distinct (map row_lap all')) /\
  (forall lap q, In lap laps -> prop lap "lap_number" = VNum q ->
     exists x, In x (map row_lap all') /\ strict_eq x (VNum q) = true).
Proof.
  intros Hd. revert all. induction laps as [|lap laps IH]; intros all H; simpl in H.
  - inversion H; subst. split; [exists []; rewrite app_nil_r; reflexivity|].
    split; [tauto | intros lap q []].
  - destruct (rbind_Ok_inv _ _ _ H) as [all1 [H1 H2]].
    destruct (IH all1 H2) as [[ext Hext] [Hdist Hcov]].
    destruct (merge_lap_laps d all all1 lap Hd H1) as [[Hm [x [Hx Hs]]] | [Hm Hnone]].
    + split; [exists ext; rewrite Hext, Hm; reflexivity|].
      split; [intros Hp; apply Hdist; rewrite Hm; exact Hp|].
      intros lap' q [<- | Hin] Hq; [| exact (Hcov lap' q Hin Hq)].
      exists x. rewrite Hext, Hm, in_app_iff. split; [left; exact Hx | rewrite <- Hq; exact Hs].
    + split; [exists (prop lap "lap_number" :: ext); rewrite Hext, Hm, <- app_assoc; reflexivity|].
      split; [intros Hp; apply Hdist; rewrite Hm; apply pairwise_distinct_snoc; assumption|].
      intros lap' q [<- | Hin] Hq; [| exact (Hcov lap' q Hin Hq)].
      exists (VNum q). rewrite Hext, Hm, !in_app_iff.
      split; [left; right; left; exact Hq | apply strict_eq_num_refl].
Qed.

Lemma driver_loop_laps (w : request -> option response) (sk : value) (drivers : list string)
    (all all' : list obj) (t : list request) :
  ~ In "LapNumber" drivers -> driver_loop w sk drivers all = (Ok all', t) ->
  (exists ext, map row_lap all' = map row_lap all ++ ext) /\
  (pairwise_distinct (map row_lap all) -> pairwise_distinct (map row_lap all')) /\
  (forall d st laps lap q, In d drivers ->
     w (ReqLaps sk d) = Some (mkResponse st (BodyJson (VArr laps))) ->
     In lap laps -> prop lap "lap_number" = VNum q ->
     exists x, In x (map row_lap all') /\ strict_eq x (VNum q) = true).
Proof.
  revert all t. induction drivers as [|d0 drivers IH]; intros all t Hds H; cbn [driver_loop] in H.
  - unfold ret in H. inversion H; subst. split; [exists []; rewrite app_nil_r; reflexivity|].
    split; [tauto | intros d st laps lap q []].
  - destruct (bind_Ok_inv _ _ _ _ H) as [lv [t1 [t2 [Hf [Hk _]]]]].
    destruct (bind_Ok_inv _ _ _ _ Hk) as [all1 [t3 [t4 [Hl [Hloop _]]]]].
    assert (Hd0 : d0 <> "LapNumber") by (intros E; apply Hds; left; exact E).
    assert (Hds' : ~ In "LapNumber" drivers) by (intros E; apply Hds; right; exact E).
    unfold lift in Hl. inversion Hl as [Hfe]. clear Hl.
    destruct lv as [| | | | |laps0|]; simpl in Hfe; try discriminate.
    destruct (merge_laps_laps d0 all all1 laps0 Hd0 Hfe) as [[e1 He1] [Hd1 Hc1]].
    destruct (IH all1 t4 Hds' Hloop) as [[e2 He2] [Hd2 Hc2]].
    split; [exists (e1 ++ e2); rewrite He2, He1, app_assoc; reflexivity|].
    split; [intros Hp; apply Hd2, Hd1, Hp|].
    intros d st laps lap q [<- | Hin] Hw Hlap Hq; [| exact (Hc2 d st laps lap q Hin Hw Hlap Hq)].
    unfold fetch_json, fetch in Hf. rewrite Hw in Hf. simpl in Hf. inversion Hf; subst.
    destruct (Hc1 lap q Hlap Hq) as [x [Hx Hs]].
    exists x. rewrite He2, in_app_iff. split; [left; exact Hx | exact Hs].
Qed.

Lemma bind_assoc {A B C} (c : M A) (f : A -> M B) (g : B -> M C) :
  bind (bind c f) g = bind c (fun a => bind (f a) g).
Proof.
  destruct c as [[a|e] t]; simpl; [|reflexivity].
  destruct (f a) as [[b|e] t2]; simpl; [|reflexivity].
  destruct (g b) as [r t3]. rewrite app_assoc. reflexivity.
Qed.

Lemma driver_loop_app (w : request -> option response) (sk : value) (ds ds' : list string)
    (all : list obj) :
  driver_loop w sk (ds ++ ds') all = bind (driver_loop w sk ds all) (fun a => driver_loop w sk ds' a).
Proof.
  revert all. induction ds as [|d ds IH]; intros all; cbn [app driver_loop].
  - unfold ret, bind. destruct (driver_loop w sk ds' all). reflexivity.
  - rewrite bind_assoc. apply bind_ext; [reflexivity | intros laps].
    rewrite bind_assoc. apply bind_ext; [reflexivity | intros all']. apply IH.
Qed.

Lemma fetchLapTimes_Ok (w : request -> option response) (year : Q) (event session : string)
    (drivers : list string) (out : value) (t : list request) :
  fetchLapTimes w year event session drivers = (Ok out, t) ->
  exists mk sk t1 t2 all t3,
    getMeetingKey w year event = (Ok mk, t1) /\ getSessionKey w mk session = (Ok sk, t2) /\
    driver_loop w sk drivers [] = (Ok all, t3) /\ out = VArr (map VObj all).
Proof.
  unfold fetchLapTimes. intros H.
  destruct (bind_Ok_inv _ _ _ _ H) as [mk [t1 [ta [Hmk [H1 _]]]]].
  destruct (bind_Ok_inv _ _ _ _ H1) as [sk [t2 [tb [Hsk [H2 _]]]]].
  destruct (bind_Ok_inv _ _ _ _ H2) as [all [t3 [tc [Hl [H3 _]]]]].
  unfold ret in H3. inversion H3; subst. exists mk, sk, t1, t2, all, t3. auto.
Qed.

(** X7: when no driver identifier is the string "LapNumber", the table
    [fetchLapTimes] returns never has two rows with [===] lap numbers. *)
Theorem fetchLapTimes_rows_distinct (w : request -> option response) (year : Q)
    (event session : string) (drivers : list string) (out : value) (t : list request)
    (Hds : ~ In "LapNumber" drivers)
    (H : fetchLapTimes w year event session drivers = (Ok out, t)) :
  exists all, out = VArr (map VObj all) /\ pairwise_distinct (map row_lap all).
Proof.
  destruct (fetchLapTimes_Ok w year event session drivers out t H)
    as [mk [sk [t1 [t2 [all [t3 [_ [_ [Hl ->]]]]]]]]].
  exists all. split; [reflexivity|].
  destruct (driver_loop_laps w sk drivers [] all t3 Hds Hl) as [_ [Hd _]].
  apply Hd. exact I.
Qed.

(** X8: when no driver identifier is the string "LapNumber", every numeric
    lap number in the lap list of any requested driver has a row in the
    table [fetchLapTimes] returns: no lap is dropped. *)
Theorem fetchLapTimes_every_lap_has_row (w : request -> option response) (year : Q)
    (event session : string) (drivers : list string) (mk sk : value) (t1 t2 : list request)
    (out : value) (t : list request)
    (Hmk : getMeetingKey w year event = (Ok mk, t1))
    (Hsk : getSessionKey w mk session = (Ok sk, t2))
    (Hds : ~ In "LapNumber" drivers)
    (H : fetchLapTimes w year event session drivers = (Ok out, t)) :
  exists all, out = VArr (map VObj all) /\
    forall d st laps lap q, In d drivers ->
      w (ReqLaps sk d) = Some (mkResponse st (BodyJson (VArr laps))) ->
      In lap laps -> prop lap "lap_number" = VNum q ->
      exists row, In row all /\ strict_eq (row_lap row) (VNum q) = true.
Proof.
  destruct (fetchLapTimes_Ok w year event session drivers out t H)
    as [mk' [sk' [t1' [t2' [all [t3 [Hmk' [Hsk' [Hl ->]]]]]]]]].
  rewrite Hmk in Hmk'. inversion Hmk'; subst mk'.
  rewrite Hsk in Hsk'. inversion Hsk'; subst sk'.
  exists all. split; [reflexivity|].
  intros d st laps lap q Hin Hw Hlap Hq.
  destruct (driver_loop_laps w sk drivers [] all t3 Hds Hl) as [_ [_ Hc]].
  destruct (Hc d st laps lap q Hin Hw Hlap Hq) as [x [Hx Hs]].
  apply in_map_iff in Hx. destruct Hx as [row [<- Hrow]]. eauto.
Qed.

(** X9: appending drivers never removes or renumbers rows: if
    [fetchLapTimes] succeeds for [ds ++ ds'] (no identifier of [ds'] being
    "LapNumber"), it succeeds for [ds], and the lap numbers of the longer
    run's rows are those of the shorter run, in order, followed by new ones. *)
Theorem fetchLapTimes_rows_kept (w : request -> option response) (year : Q)
    (event session : string) (ds ds' : list string) (out : value) (t : list request)
    (Hds' : ~ In "LapNumber" ds')
    (H : fetchLapTimes w year event session (ds ++ ds') = (Ok out, t)) :
  exists all1 all2 ext,
    fst (fetchLapTimes w year event session ds) = Ok (VArr (map VObj all1)) /\
    out = VArr (map VObj all2) /\
    map row_lap all2 = map row_lap all1 ++ ext.
Proof.
  destruct (fetchLapTimes_Ok w year event session (ds ++ ds') out t H)
    as [mk [sk [t1 [t2 [all2 [t3 [Hmk [Hsk [Hl ->]]]]]]]]].
  rewrite driver_loop_app in Hl.
  destruct (bind_Ok_inv _ _ _ _ Hl) as [all1 [t4 [t5 [H1 [H2 _]]]]].
  destruct (driver_loop_laps w sk ds' all1 all2 t5 Hds' H2) as [[ext Hext] _].
  exists all1, all2, ext. split; [|split; [reflexivity | exact Hext]].
  unfold fetchLapTimes. rewrite Hmk, bind_Ok, Hsk, bind_Ok, H1. reflexivity.
Qed.

(** *** Reshaping of the list endpoints *)

Lemma map_elems_map (f : value -> result value) (g : value -> value) (xs : list value) :
  (forall x, In x xs -> f x = Ok (g x)) -> map_elems f xs = Ok (map g xs).
Proof.
  induction xs as [|x xs IH]; simpl; intros H; [reflexivity|].
  rewrite (H x (or_introl eq_refl)). simpl.
  rewrite IH by (intros y Hy; apply H; right; exact Hy). reflexivity.
Qed.

Lemma records_map (f : value -> result value) (g : value -> value) (xs : list value) :
  (forall x, nullish x = false -> f x = Ok (g x)) ->
  Forall (fun x => nullish x = false) xs ->
  js_map f (VArr xs) = Ok (VArr (map g xs)).
Proof.
  intros Hf Hxs. simpl. rewrite (map_elems_map f g); [reflexivity|].
  intros x Hx. apply Hf. rewrite Forall_forall in Hxs. exact (Hxs x Hx).
Qed.

Lemma fetchSchedule_map (w : request -> option response) (year : Q) (st : Z) (ms : list value) :
  w (ReqMeetings year) = Some (mkResponse st (BodyJson (VArr ms))) ->
  Forall (fun m => nullish m = false) ms ->
  fetchSchedule w year = (Ok (VArr (map schedule_entry ms)), [ReqMeetings year]).
Proof.
  intros Hw Hms. unfold fetchSchedule, fetch_json, fetch. rewrite Hw. cbn -[js_map get].
  rewrite (records_map _ schedule_entry ms); [reflexivity | | exact Hms].
  intros m Hm. rewrite !(get_prop m _ Hm). reflexivity.
Qed.

(** X10: on a list of meeting records, [fetchSchedule] returns one entry
    per meeting, in the list's order, with [meeting_key] and [name] copied
    and a missing or empty [country] or [date] replaced by the empty string;
    it issues only the meetings request, whatever its status. *)
Theorem fetchSchedule_entries (w : request -> option response) (year : Q) (st : Z)
    (ms : list value)
    (Hw : w (ReqMeetings year) = Some (mkResponse st (BodyJson (VArr ms))))
    (Hms : Forall (fun m => nullish m = false) ms) :
  fetchSchedule w year = (Ok (VArr (map schedule_entry ms)), [ReqMeetings year]).
Proof. exact (fetchSchedule_map w year st ms Hw Hms). Qed.

(** X11: once the meeting key is resolved, on a list of session records
    [fetchAvailableSessions] returns one entry per session in order, with
    [name] and [type] copied and [startTime] the session's [date], or the
    empty string when the date is missing or empty; the sessions list is
    requested once more after the resolution. *)
Theorem fetchAvailableSessions_entries (w : request -> option response) (year : Q)
    (event : string) (mk : value) (t1 : list request) (st : Z) (ss : list value)
    (Hmk : getMeetingKey w year event = (Ok mk, t1))
    (Hw : w (ReqSessions mk) = Some (mkResponse st (BodyJson (VArr ss))))
    (Hss : Forall (fun s => nullish s = false) ss) :
  fetchAvailableSessions w year event =
    (Ok (VArr (map session_entry ss)), t1 ++ [ReqSessions mk]).
Proof.
  unfold fetchAvailableSessions. rewrite Hmk, bind_Ok. unfold fetch_json, fetch. rewrite Hw. cbn -[js_map get].
  rewrite (records_map _ session_entry ss); [reflexivity | | exact Hss].
  intros x Hx. rewrite !(get_prop x _ Hx). reflexivity.
Qed.

(** X12: once both keys are resolved, on an entry list of records
    [fetchSessionDrivers] returns one driver per entry in order, with [code]
    the entry's [driver_number], [name] its [full_name] and [team] its
    [team]. *)
Theorem fetchSessionDrivers_entries (w : request -> option response) (year : Q)
    (event session : string) (mk sk : value) (t1 t2 : list request) (st : Z) (ds : list value)
    (Hmk : getMeetingKey w year event = (Ok mk, t1))
    (Hsk : getSessionKey w mk session = (Ok sk, t2))
    (Hw : w (ReqEntryList sk) = Some (mkResponse st (BodyJson (VArr ds))))
    (Hds : Forall (fun d => nullish d = false) ds) :
  fetchSessionDrivers w year event session =
    (Ok (VArr (map driver_entry ds)), t1 ++ t2 ++ [ReqEntryList sk]).
Proof.
  unfold fetchSessionDrivers. rewrite Hmk, bind_Ok, Hsk, bind_Ok.
  unfold fetch_json, fetch. rewrite Hw. cbn -[js_map get].
  rewrite (records_map _ driver_entry ds); [reflexivity | | exact Hds].
  intros x Hx. rewrite !(get_prop x _ Hx). reflexivity.
Qed.

Lemma driver_loop_status (w : request -> option response) (sk : value) (ds : list string)
    (all : list obj) :
  driver_loop w sk ds all = driver_loop (with_status_200 w) sk ds all.
Proof.
  revert all. induction ds as [|d ds IH]; intros all; cbn [driver_loop]; [reflexivity|].
  apply bind_ext; [apply fetch_json_status | intros laps].
  apply bind_ext; [reflexivity | intros all']. apply IH.
Qed.

Ltac status_blind :=
  repeat first
    [ apply getMeetingKey_status | apply getSessionKey_status | apply fetch_json_status
    | apply driver_loop_status | reflexivity | apply bind_ext; [| intros ?] ].

(** X13: no function of part_000 reads the HTTP status of a response: on an
    upstream whose statuses are all replaced by 200 (bodies unchanged) each
    of them issues the same requests and has the same outcome. *)
Theorem part_000_status_blind (w : request -> option response) :
  let w' := with_status_200 w in
  (forall y e, fetchAvailableSessions w y e = fetchAvailableSessions w' y e) /\
  (forall y e s, fetchSessionDrivers w y e s = fetchSessionDrivers w' y e s) /\
  (forall y e s ds, fetchLapTimes w y e s ds = fetchLapTimes w' y e s ds) /\
  (forall y e s, fetchLapPositions w y e s = fetchLapPositions w' y e s) /\
  (forall y, fetchRaceResults w y = fetchRaceResults w' y) /\
  (forall y e s, fetchSpecificRaceResults w y e s = fetchSpecificRaceResults w' y e s) /\
  (forall y, fetchDriverStandings w y = fetchDriverStandings w' y) /\
  (forall y, fetchTeamStandings w y = fetchTeamStandings w' y) /\
  (forall y, fetchSchedule w y = fetchSchedule w' y).
Proof.
  intros w'. subst w'.
  repeat split; intros;
    unfold fetchAvailableSessions, fetchSessionDrivers, fetchLapTimes, fetchLapPositions,
      fetchRaceResults, fetchSpecificRaceResults, fetchDriverStandings, fetchTeamStandings,
      fetchSchedule;
    status_blind.
Qed.

(** X14: [getSessionKey] returns the [session_key] of the first session of
    the meeting whose name contains the requested name case-insensitively,
    in the order the upstream list gives them, after one sessions request. *)
Theorem getSessionKey_first_match (w : request -> option response) (mk : value)
    (session : string) (st : Z) (pre : list value) (x : value) (post : list value) (s : string)
    (Hw : w (ReqSessions mk) = Some (mkResponse st (BodyJson (VArr (pre ++ x :: post)))))
    (Hpre : Forall (no_match session) pre)
    (Hx : name_of x = Some s)
    (Hinc : includes (lower s) (lower session) = true) :
  getSessionKey w mk session = (Ok (prop x "session_key"), [ReqSessions mk]).
Proof.
  destruct (name_of_obj x s Hx) as [fs ->].
  unfold getSessionKey, fetch. rewrite Hw. simpl.
  rewrite (find_elem_first session pre (VObj fs) post s Hpre Hx Hinc). reflexivity.
Qed.

(** X15: with no drivers, once both keys are resolved [fetchLapTimes]
    returns an empty table and issues no lap request. *)
Theorem fetchLapTimes_no_drivers (w : request -> option response) (year : Q)
    (event session : string) (mk sk : value) (t1 t2 : list request)
    (Hmk : getMeetingKey w year event = (Ok mk, t1))
    (Hsk : getSessionKey w mk session = (Ok sk, t2)) :
  fetchLapTimes w year event session [] = (Ok (VArr []), t1 ++ t2).
Proof.
  unfold fetchLapTimes. rewrite Hmk, bind_Ok, Hsk, bind_Ok. cbn [driver_loop].
  unfold ret, bind. simpl. rewrite !app_nil_r. reflexivity.
Qed.

End Lowering.

(** ** The claims that also run the code on the sample inputs *)

(** C1: once the meeting and session keys are resolved and each driver's
    lap list is an array of lap records, [fetchLapTimes] requests the drivers'
    laps one after the other in the order given and returns the table the
    spec describes ([merged_table]); on the spec's example (driver 1: laps
    1 and 2 in 90.1 s and 89.9 s; driver 2: laps 1 and 3 in 91.0 s and
    88.5 s) the table has exactly three rows, lap 1 with both columns, then
    lap 2 with driver 1's column, then lap 3 with driver 2's column. *)
Theorem fetchLapTimes_merge (toLowerCase : string -> string) (w : request -> option response)
    (year : Q) (event session : string)
    (drivers : list string) (laps_of : string -> list value)
    (mk sk : value) (t1 t2 : list request)
    (Hmk : getMeetingKey toLowerCase w year event = (Ok mk, t1))
    (Hsk : getSessionKey toLowerCase w mk session = (Ok sk, t2))
    (Hlaps : forall d, In d drivers ->
       exists st, w (ReqLaps sk d) = Some (mkResponse st (BodyJson (VArr (laps_of d)))))
    (Hrec : forall d, In d drivers -> Forall (fun lap => nullish lap = false) (laps_of d)) :
  fetchLapTimes toLowerCase w year event session drivers =
    (Ok (VArr (map VObj (merged_table drivers laps_of))), t1 ++ t2 ++ map (ReqLaps sk) drivers) /\
  merged_table ["1"; "2"] sample_laps =
    [[("LapNumber", VNum 1); ("1", VNum (901 # 10)); ("2", VNum 91)];
     [("LapNumber", VNum 2); ("1", VNum (899 # 10))];
     [("LapNumber", VNum 3); ("2", VNum (885 # 10))]] /\
  fst (fetchLapTimes ascii_toLowerCase sample_world 2024 "bahrain" "Race" ["1"; "2"]) =
    Ok (VArr [VObj [("LapNumber", VNum 1); ("1", VNum (901 # 10)); ("2", VNum 91)];
              VObj [("LapNumber", VNum 2); ("1", VNum (899 # 10))];
              VObj [("LapNumber", VNum 3); ("2", VNum (885 # 10))]]).
Proof.
  split; [| split; vm_compute; reflexivity].
  unfold fetchLapTimes. rewrite Hmk, bind_Ok, Hsk, bind_Ok.
  rewrite (driver_loop_spec w sk laps_of drivers [] Hlaps Hrec).
  simpl. rewrite app_nil_r. reflexivity.
Qed.

(** C5 (evidence of the defect): the [fetchTelemetry*] functions never read
    the HTTP status; only the bodies of the responses decide their outcome.
    With the car-data endpoint answering HTTP 500 and the body [[]],
    [fetchTelemetrySpeed] resolves to an empty series, while the sibling
    [fetchCarData] of src/lib/api.ts throws an error carrying status 500. *)
Theorem fetchTelemetry_ignores_status :
  (forall toLowerCase w point year event session driver lap,
     car_data_series toLowerCase w point year event session driver lap =
     car_data_series toLowerCase (with_status_200 w) point year event session driver lap) /\
  fetchTelemetrySpeed ascii_toLowerCase status500_world 2024 "bahrain" "Race" "1" 1 =
    (Ok (VArr []), [ReqMeetings 2024; ReqSessions (VNum 1229); ReqCarData (VNum 9472) "1" 1]) /\
  fetchCarData status500_world 1 9472 None =
    (Err (EHttp 500), [ReqCarDataFiltered 1 9472 None]).
Proof.
  split; [| split; vm_compute; reflexivity].
  intros toLowerCase w point year event session driver lap. unfold car_data_series.
  rewrite <- getMeetingKey_status. apply bind_ext; [reflexivity | intros mk].
  rewrite <- getSessionKey_status. apply bind_ext; [reflexivity | intros sk].
  rewrite <- fetch_json_status. reflexivity.
Qed.

(** ** Witnesses: the theorems at concrete inputs *)

Lemma getMeetingKey_first_match_witness :
  getMeetingKey ascii_toLowerCase sample_world 2024 "SAUDI" = (Ok (VNum 1230), [ReqMeetings 2024]).
Proof.
  apply (getMeetingKey_first_match ascii_toLowerCase sample_world 2024 "SAUDI" 200%Z
           [meeting_rec "Bahrain Grand Prix" 1229] (meeting_rec "Saudi Arabian Grand Prix" 1230) []
           "Saudi Arabian Grand Prix").
  - reflexivity.
  - constructor; [eexists; split; reflexivity | constructor].
  - reflexivity.
  - reflexivity.
Defined.

Lemma resolution_failure_aborts_witness :
  fetchLapTimes ascii_toLowerCase sample_world 2024 "monaco" "Race" ["1"] =
    (Err (EMeetingNotFound 2024 "monaco"), [ReqMeetings 2024]).
Proof.
  refine (proj2 (proj1 (resolution_failure_aborts ascii_toLowerCase sample_world 2024 "monaco" "Race" ["1"] "1" 1)
                   200%Z [meeting_rec "Bahrain Grand Prix" 1229; meeting_rec "Saudi Arabian Grand Prix" 1230]
                   eq_refl _)
                (fun y e s => fetchLapTimes ascii_toLowerCase sample_world y e s ["1"]) _).
  - repeat constructor; eexists; split; reflexivity.
  - simpl. do 3 right. left. reflexivity.
Defined.

Lemma empty_fragment_first_meeting_witness :
  fetchDriverStandings ascii_toLowerCase sample_world 2024 =
    issued_after [ReqMeetings 2024] (fetch_json sample_world (ReqStandingsDrivers (VNum 1229))).
Proof.
  exact (proj1 (proj2 (proj1 (empty_fragment_first_meeting ascii_toLowerCase sample_world 2024) 200%Z
           (meeting_rec "Bahrain Grand Prix" 1229) [meeting_rec "Saudi Arabian Grand Prix" 1230]
           "Bahrain Grand Prix" eq_refl eq_refl))).
Defined.

Lemma fetchLapTimes_merge_witness :
  fetchLapTimes ascii_toLowerCase sample_world 2024 "bahrain" "Race" ["1"; "2"] =
    (Ok (VArr (map VObj (merged_table ["1"; "2"] sample_laps))),
     [ReqMeetings 2024] ++ [ReqSessions (VNum 1229)] ++ map (ReqLaps (VNum 9472)) ["1"; "2"]).
Proof.
  refine (proj1 (fetchLapTimes_merge ascii_toLowerCase sample_world 2024 "bahrain" "Race" ["1"; "2"] sample_laps
                   (VNum 1229) (VNum 9472) [ReqMeetings 2024] [ReqSessions (VNum 1229)] _ _ _ _)).
  - reflexivity.
  - reflexivity.
  - intros d [<- | [<- | []]]; exists 200%Z; reflexivity.
  - intros d [<- | [<- | []]]; repeat constructor.
Defined.

Lemma fetchLapTimes_all_or_nothing_witness :
  exists e t, fetchLapTimes ascii_toLowerCase lapfail_world 2024 "bahrain" "Race" ["1"; "2"] = (Err e, t).
Proof.
  apply (fetchLapTimes_all_or_nothing ascii_toLowerCase lapfail_world 2024 "bahrain" "Race" ["1"; "2"] "2"
           (VNum 1229) (VNum 9472) [ReqMeetings 2024] [ReqSessions (VNum 1229)] ENetwork).
  - reflexivity.
  - reflexivity.
  - simpl. right. left. reflexivity.
  - reflexivity.
Defined.

Lemma drs_projection_witness :
  exists ys, js_map drs_point (VArr sample_car_data) = Ok (VArr ys).
Proof.
  apply (proj2 (drs_projection sample_car_data)).
  repeat constructor.
Defined.

Lemma projection_preserves_samples_witness :
  exists ys, js_map speed_point (VArr sample_car_data) = Ok (VArr ys).
Proof.
  apply (proj2 (projection_preserves_samples speed_point sample_car_data (or_introl eq_refl))).
  repeat constructor.
Defined.

(** ** Witnesses of the further properties *)

Lemma resolvers_non_array_body_witness :
  getMeetingKey ascii_toLowerCase demo_world 2023 "bahrain" = (Err ETypeError, [ReqMeetings 2023]).
Proof.
  exact (proj1 (resolvers_non_array_body ascii_toLowerCase demo_world) 2023 "bahrain"
           (mkResponse 503 (BodyJson (VObj [("error", VStr "unavailable")])))
           (VObj [("error", VStr "unavailable")]) eq_refl eq_refl
           (fun xs E => ltac:(discriminate E))).
Defined.

Lemma resolvers_bad_record_aborts_witness :
  getMeetingKey ascii_toLowerCase demo_world 2022 "bahrain" = (Err ETypeError, [ReqMeetings 2022]).
Proof.
  exact (proj1 (resolvers_bad_record_aborts ascii_toLowerCase demo_world 200%Z "bahrain" [] VNull
                  [meeting_rec "Bahrain Grand Prix" 1100] (Forall_nil _) eq_refl) 2022 eq_refl).
Defined.

Lemma api_ts_status_checked_witness :
  fetchDriverInfo demo_world 1 9472 = (Err (EHttp 404), [ReqDriverInfo 1 9472]).
Proof.
  refine (proj1 (proj2 (api_ts_status_checked demo_world 1 9472 5 1 None
                          (fetchDriverInfo demo_world 1 9472) (ReqDriverInfo 1 9472) _))
            (mkResponse 404 (BodyJson (VObj [("detail", VStr "Not found")]))) eq_refl eq_refl).
  simpl. right. left. reflexivity.
Defined.

Lemma drs_numeric_inactive_witness :
  exists y, drs_point (VObj [("distance", VNum 12); ("speed", VNum 284); ("drs", VNum 0)]) = Ok y /\
    prop y "DRS" = VNum 0.
Proof.
  eexists. split; [reflexivity|].
  apply (drs_numeric_inactive (VObj [("distance", VNum 12); ("speed", VNum 284); ("drs", VNum 0)]) _ 0);
    reflexivity.
Defined.

Lemma car_data_series_outcomes_witness :
  fetchTelemetrySpeed ascii_toLowerCase demo_world 2024 "bahrain" "Race" "44" 1 =
    (Err ENetwork, [ReqMeetings 2024; ReqSessions (VNum 1229); ReqCarData (VNum 9472) "44" 1]).
Proof.
  exact (proj1 (car_data_series_outcomes ascii_toLowerCase demo_world speed_point 2024 "bahrain" "Race" "44" 1
                  (VNum 1229) (VNum 9472) [ReqMeetings 2024] [ReqSessions (VNum 1229)]
                  eq_refl eq_refl) eq_refl).
Defined.

Lemma fetchLapTimes_rows_distinct_witness :
  exists all, VArr (map VObj (merged_table ["1"; "2"] sample_laps)) = VArr (map VObj all) /\
    pairwise_distinct (map row_lap all).
Proof.
  apply (fetchLapTimes_rows_distinct ascii_toLowerCase sample_world 2024 "bahrain" "Race" ["1"; "2"] _
           [ReqMeetings 2024; ReqSessions (VNum 1229); ReqLaps (VNum 9472) "1"; ReqLaps (VNum 9472) "2"]).
  - simpl. intros [E | [E | []]]; discriminate E.
  - reflexivity.
Defined.

Lemma fetchLapTimes_every_lap_has_row_witness :
  exists all, VArr (map VObj (merged_table ["1"; "2"] sample_laps)) = VArr (map VObj all) /\
    forall d st laps lap q, In d ["1"; "2"] ->
      sample_world (ReqLaps (VNum 9472) d) = Some (mkResponse st (BodyJson (VArr laps))) ->
      In lap laps -> prop lap "lap_number" = VNum q ->
      exists row, In row all /\ strict_eq (row_lap row) (VNum q) = true.
Proof.
  apply (fetchLapTimes_every_lap_has_row ascii_toLowerCase sample_world 2024 "bahrain" "Race" ["1"; "2"]
           (VNum 1229) (VNum 9472) [ReqMeetings 2024] [ReqSessions (VNum 1229)] _
           [ReqMeetings 2024; ReqSessions (VNum 1229); ReqLaps (VNum 9472) "1"; ReqLaps (VNum 9472) "2"]).
  - reflexivity.
  - reflexivity.
  - simpl. intros [E | [E | []]]; discriminate E.
  - reflexivity.
Defined.

Lemma fetchLapTimes_rows_kept_witness :
  exists all1 all2 ext,
    fst (fetchLapTimes ascii_toLowerCase sample_world 2024 "bahrain" "Race" ["1"]) = Ok (VArr (map VObj all1)) /\
    VArr (map VObj (merged_table ["1"; "2"] sample_laps)) = VArr (map VObj all2) /\
    map row_lap all2 = map row_lap all1 ++ ext.
Proof.
  apply (fetchLapTimes_rows_kept ascii_toLowerCase sample_world 2024 "bahrain" "Race" ["1"] ["2"] _
           [ReqMeetings 2024; ReqSessions (VNum 1229); ReqLaps (VNum 9472) "1"; ReqLaps (VNum 9472) "2"]).
  - simpl. intros [E | []]; discriminate E.
  - reflexivity.
Defined.

Lemma fetchSchedule_entries_witness :
  fetchSchedule sample_world 2024 =
    (Ok (VArr (map schedule_entry [meeting_rec "Bahrain Grand Prix" 1229;
                                   meeting_rec "Saudi Arabian Grand Prix" 1230])),
     [ReqMeetings 2024]).
Proof.
  apply (fetchSchedule_entries sample_world 2024 200%Z).
  - reflexivity.
  - repeat constructor.
Defined.

Lemma fetchAvailableSessions_entries_witness :
  fetchAvailableSessions ascii_toLowerCase sample_world 2024 "bahrain" =
    (Ok (VArr (map session_entry [session_rec "Practice 1" 9463; session_rec "Race" 9472])),
     [ReqMeetings 2024] ++ [ReqSessions (VNum 1229)]).
Proof.
  apply (fetchAvailableSessions_entries ascii_toLowerCase sample_world 2024 "bahrain" (VNum 1229) [ReqMeetings 2024] 200%Z).
  - reflexivity.
  - reflexivity.
  - repeat constructor.
Defined.

Lemma fetchSessionDrivers_entries_witness :
  fetchSessionDrivers ascii_toLowerCase demo_world 2024 "bahrain" "Race" =
    (Ok (VArr (map driver_entry [VObj [("driver_number", VNum 1); ("full_name", VStr "Max VERSTAPPEN");
                                       ("team", VStr "Red Bull Racing")]])),
     [ReqMeetings 2024] ++ [ReqSessions (VNum 1229)] ++ [ReqEntryList (VNum 9472)]).
Proof.
  apply (fetchSessionDrivers_entries ascii_toLowerCase demo_world 2024 "bahrain" "Race" (VNum 1229) (VNum 9472)
           [ReqMeetings 2024] [ReqSessions (VNum 1229)] 200%Z).
  - reflexivity.
  - reflexivity.
  - reflexivity.
  - repeat constructor.
Defined.

Lemma getSessionKey_first_match_witness :
  getSessionKey ascii_toLowerCase sample_world (VNum 1229) "RACE" = (Ok (VNum 9472), [ReqSessions (VNum 1229)]).
Proof.
  apply (getSessionKey_first_match ascii_toLowerCase sample_world (VNum 1229) "RACE" 200%Z
           [session_rec "Practice 1" 9463] (session_rec "Race" 9472) [] "Race").
  - reflexivity.
  - constructor; [eexists; split; reflexivity | constructor].
  - reflexivity.
  - reflexivity.
Defined.

Lemma fetchLapTimes_no_drivers_witness :
  fetchLapTimes ascii_toLowerCase sample_world 2024 "bahrain" "Race" [] =
    (Ok (VArr []), [ReqMeetings 2024] ++ [ReqSessions (VNum 1229)]).
Proof.
  apply (fetchLapTimes_no_drivers ascii_toLowerCase sample_world 2024 "bahrain" "Race" (VNum 1229) (VNum 9472)
           [ReqMeetings 2024] [ReqSessions (VNum 1229)]); reflexivity.
Defined.
